(** * media_meta_inspector: the metadata extractor of [main.py]

    A shallow embedding of [get_mp3_metadata] and of the Python builtins
    it relies on, followed by the properties of the extractor.

    Conventions of the embedding.
    - Python [int] is [Z]; a [float] is the rational number it denotes
      (every finite binary64 value is a dyadic rational) and lives in [Q].
    - Python [str] is [string]; one [ascii] is one code point below 256,
      which is what HTTP header text decoded as latin-1 consists of.
    - The dictionaries returned by [get_mp3_metadata] are [gmap string string].
    - The filesystem is a finite map from paths to file contents; the code
      runs in a state-and-exception monad over it.
    - [print] has no effect on the returned value or on the filesystem and
      is not modelled, except that evaluating its argument may raise. *)

From Stdlib Require Import QArith Qround Ascii String.
From stdpp Require Import gmap strings pretty list fin_maps.

Open Scope Z_scope.

(** ** Exceptions and outcomes *)

(** An instance of [Exception].  The handlers of [main.py] look at two
    things only: whether the instance belongs to
    [mutagen.mp3.HeaderNotFoundError] and what [str(e)] is.  Interpreter
    signals outside [Exception] ([KeyboardInterrupt], [SystemExit]) are not
    raised by any call of the function and are not represented. *)
Record exn := Exn {
  is_HeaderNotFoundError : bool;
  str_of_exn : string
}.

Inductive outcome (A : Type) : Type :=
| Return (a : A)
| Raise (e : exn).
Arguments Return {A} a.
Arguments Raise {A} e.

Definition ValueError (msg : string) : exn := Exn false msg.
Definition OverflowError (msg : string) : exn := Exn false msg.

(** ** Python builtins *)

Module Py.

Definition code (c : ascii) : Z := Z.of_nat (nat_of_ascii c).

(** The white space that [int(str)] skips around a literal: the C-locale
    spaces, plus NEL and NBSP, which CPython rewrites to a blank before
    parsing.  (The separators 0x1c-0x1f are white space for [str.strip]
    but not here.) *)
Definition is_space (c : ascii) : bool :=
  let n := code c in
  ((9 <=? n) && (n <=? 13)) || (n =? 32) || (n =? 133) || (n =? 160).

Definition is_digit (c : ascii) : bool :=
  let n := code c in (48 <=? n) && (n <=? 57).

Definition digit_value (c : ascii) : Z := code c - 48.

Fixpoint skip_space (s : string) : string :=
  match s with
  | String c r => if is_space c then skip_space r else s
  | EmptyString => EmptyString
  end.

(** Digits of a decimal literal; a single underscore may separate two
    digits.  Returns the value read and the unread rest. *)
Fixpoint scan_digits (acc : Z) (s : string) : Z * string :=
  match s with
  | String c r =>
      if is_digit c then scan_digits (10 * acc + digit_value c) r
      else if Ascii.eqb c "_" then
        match r with
        | String c' _ => if is_digit c' then scan_digits acc r else (acc, s)
        | EmptyString => (acc, s)
        end
      else (acc, s)
  | EmptyString => (acc, s)
  end.

(** [int(s)] for a string [s], base 10: [None] stands for [ValueError].
    (The configurable cap on the number of digits that interpreters from
    3.11 on apply is not part of the model.) *)
Definition int_of_str (s : string) : option Z :=
  let s1 := skip_space s in
  let '(neg, s2) :=
    match s1 with
    | String "-" r => (true, r)
    | String "+" r => (false, r)
    | _ => (false, s1)
    end in
  match s2 with
  | String c _ =>
      if is_digit c then
        let '(v, rest) := scan_digits 0 s2 in
        match skip_space rest with
        | EmptyString => Some (if neg : bool then - v else v)
        | String _ _ => None
        end
      else None
  | EmptyString => None
  end.

(** [repr(s)] for a string of code points below 256. *)
Definition squote : ascii := "039".
Definition dquote : ascii := "034".
Definition backslash : ascii := "092".

Fixpoint contains (q : ascii) (s : string) : bool :=
  match s with
  | String c r => Ascii.eqb c q || contains q r
  | EmptyString => false
  end.

Definition hex_digit (n : Z) : ascii :=
  ascii_of_nat (Z.to_nat (if n <? 10 then 48 + n else 87 + n)).

Definition printable (c : ascii) : bool :=
  let n := code c in
  ((32 <=? n) && (n <? 127)) || ((161 <=? n) && negb (n =? 173)).

Definition repr_char (q c : ascii) : string :=
  let n := code c in
  if Ascii.eqb c q || Ascii.eqb c backslash then String backslash (String c EmptyString)
  else if n =? 9 then String backslash "t"
  else if n =? 10 then String backslash "n"
  else if n =? 13 then String backslash "r"
  else if printable c then String c EmptyString
  else String backslash
         (String "x" (String (hex_digit (n / 16)) (String (hex_digit (n mod 16)) EmptyString))).

Fixpoint repr_body (q : ascii) (s : string) : string :=
  match s with
  | String c r => repr_char q c +:+ repr_body q r
  | EmptyString => EmptyString
  end.

Definition repr (s : string) : string :=
  let q := if contains squote s && negb (contains dquote s) then dquote else squote in
  String q (repr_body q s +:+ String q EmptyString).

(** [str(n)] for an integer. *)
Definition str_int (n : Z) : string := pretty n.

(** [format(n, "02d")]: zero padded to two columns, the sign included. *)
Definition format_02d (n : Z) : string :=
  if (0 <=? n) && (n <? 10) then "0" +:+ str_int n else str_int n.

(** [n / d] rounded to the nearest integer, ties to even ([0 <= n], [0 < d]). *)
Definition round_half_even (n d : Z) : Z :=
  let q := n / d in
  let r := n mod d in
  if 2 * r <? d then q
  else if d <? 2 * r then q + 1
  else if Z.even q then q else q + 1.

(** The binary64 number nearest to the natural number [n], as an integer:
    [n] rounded to 53 significant bits. *)
Definition to_binary64 (n : Z) : Z :=
  let bits := Z.log2 n + 1 in
  if bits <=? 53 then n
  else let sh := bits - 53 in round_half_even n (2 ^ sh) * 2 ^ sh.

(** [f"{n / (1024 * 1024):.2f}"].  The true division of two integers is
    correctly rounded to binary64 and raises [OverflowError] beyond the
    binary64 range; [.2f] prints the exact value of the quotient rounded to
    two decimals, ties to even, and keeps the sign of a negative zero. *)
Definition format_mb (n : Z) : outcome string :=
  let m := to_binary64 (Z.abs n) in
  if 2 ^ 1044 <=? m then
    Raise (OverflowError "integer division result too large for a float")
  else
    let cents := round_half_even (m * 100) (2 ^ 20) in
    Return ((if n <? 0 then "-" else "") +:+
            str_int (cents / 100) +:+ "." +:+ format_02d (cents mod 100)).

(** [divmod(x, 60)] on a float and [int(x)] of a float, on the rationals
    the floats denote.  For [0 <= x < 2^53] the binary64 operations are
    exact ([fmod] always is, and the quotient is a representable integer),
    so the model agrees with the interpreter there. *)
Definition divmod (x y : Q) : Q * Q :=
  let q := Qfloor (x / y) in
  (inject_Z q, (x - inject_Z q * y)%Q).

Definition int_of_float (x : Q) : Z :=
  if Qle_bool 0 x then Qfloor x else Qceiling x.

End Py.

(** ** Data model *)

Abbreviation filesystem := (gmap string (list Byte.byte)).
Abbreviation dict := (gmap string string).

(** The structural info a parser exposes as [audio.info]; [None] is an
    attribute the object does not have. *)
Record StreamInfo := {
  info_length : option Q;
  info_channels : option Z;
  info_sample_rate : option Z;
  info_bitrate : option Z
}.

(** What a parser call evaluates to: [None], an object without an [info]
    attribute, an object whose [info] is [None], or one with an info. *)
Inductive audio :=
| AudioNone
| AudioWithoutInfo
| AudioInfoNone
| AudioInfo (info : StreamInfo).

(** The parser classes imported from mutagen. *)
Inductive parser := MP3 | MP4 | FLAC | OggVorbis | WAVE | File.

(** A value that is an integer or a string, as [getattr] with a string
    default yields. *)
Inductive value := VInt (n : Z) | VStr (s : string).

Definition value_eqb (a b : value) : bool :=
  match a, b with
  | VInt x, VInt y => x =? y
  | VStr x, VStr y => String.eqb x y
  | _, _ => false
  end.

Definition str_value (v : value) : string :=
  match v with
  | VInt n => Py.str_int n
  | VStr s => s
  end.

(** The body of a streamed response: the chunks [iter_content] yields, and
    the exception that ends the iteration early, if any. *)
Record response_body := {
  chunks : list (list Byte.byte);
  interrupted : option exn
}.

(** The collaborators of [get_mp3_metadata]: the two HTTP requests (the
    probe answers with the [content-length] header, if present), the
    extension [Path(urlparse(url).path).suffix.lower()], the name chosen by
    [tempfile.NamedTemporaryFile(delete=False, suffix=...)], and the
    mutagen parsers run on a path. *)
Record world := {
  requests_head : string -> outcome (option string);
  requests_get : string -> outcome response_body;
  path_suffix_lower : string -> string;
  NamedTemporaryFile : string -> filesystem -> outcome string;
  mutagen : parser -> string -> filesystem -> outcome audio
}.

(** ** The monad of the function body *)

Definition M (A : Type) : Type := filesystem -> outcome A * filesystem.

Definition ret {A} (a : A) : M A := fun fs => (Return a, fs).
Definition raise {A} (e : exn) : M A := fun fs => (Raise e, fs).
Definition lift {A} (o : outcome A) : M A := fun fs => (o, fs).

Definition bind {A B} (m : M A) (k : A -> M B) : M B :=
  fun fs =>
    match m fs with
    | (Return a, fs') => k a fs'
    | (Raise e, fs') => (Raise e, fs')
    end.

Notation "x <- m ;; k" := (bind m (fun x => k))
  (at level 100, m at next level, right associativity).

(** [try: m  except Exception as e: h e] *)
Definition try_except {A} (m : M A) (h : exn -> M A) : M A :=
  fun fs =>
    match m fs with
    | (Return a, fs') => (Return a, fs')
    | (Raise e, fs') => h e fs'
    end.

(** [try: m  finally: fin]: [fin] runs on every exit of [m]; an exception
    of [fin] replaces the outcome of [m]. *)
Definition try_finally {A} (m : M A) (fin : M unit) : M A :=
  fun fs =>
    let '(r, fs1) := m fs in
    match fin fs1 with
    | (Return _, fs2) => (r, fs2)
    | (Raise e, fs2) => (Raise e, fs2)
    end.

Definition obind {A B} (o : outcome A) (k : A -> outcome B) : outcome B :=
  match o with
  | Return a => k a
  | Raise e => Raise e
  end.

(** ** [get_mp3_metadata] *)

(** Lines 44-55: the parser chosen for a file extension. *)
Definition select_parser (file_extension : string) : parser :=
  if String.eqb file_extension ".mp3" then MP3
  else if bool_decide (file_extension ∈ [".m4a"; ".mp4"]) then MP4
  else if String.eqb file_extension ".flac" then FLAC
  else if String.eqb file_extension ".ogg" then OggVorbis
  else if String.eqb file_extension ".wav" then WAVE
  else File.

(** [audio is not None and hasattr(audio, "info") and audio.info is not None] *)
Definition usable_info (a : audio) : option StreamInfo :=
  match a with
  | AudioInfo info => Some info
  | _ => None
  end.

(** Lines 59-100: the report built from the info of the first parse. *)
Definition report_primary (total_size : Z) (info : StreamInfo) : outcome dict :=
  let duration :=
    match info_length info with
    | Some length =>
        let '(minutes, seconds) := Py.divmod length 60 in
        Py.str_int (Py.int_of_float minutes) +:+ ":" +:+
        Py.format_02d (Py.int_of_float seconds)
    | None => "Unknown"
    end in
  let channels :=
    match info_channels info with Some n => VInt n | None => VStr "Unknown" end in
  let channel_text :=
    if value_eqb channels (VInt 1) then "Mono"
    else if value_eqb channels (VInt 2) then "Stereo"
    else str_value channels +:+ " channels" in
  let sample_rate :=
    match info_sample_rate info with Some n => VInt n | None => VStr "Unknown" end in
  let bitrate :=
    match info_bitrate info with Some b => b / 1000 | None => 0 end in
  obind (Py.format_mb total_size) (fun size =>
  Return (list_to_map [
    ("file_size", size +:+ " MB");
    ("duration", duration);
    ("channels", channel_text);
    ("sample_rate",
      if negb (value_eqb sample_rate (VStr "Unknown"))
      then str_value sample_rate +:+ " Hz" else "Unknown");
    ("bitrate",
      if negb (bitrate =? 0) then Py.str_int bitrate +:+ " kbps" else "Unknown")
  ])).

(** Lines 110-141: the report built from the info of the second parse. *)
Definition report_fallback (total_size : Z) (info : StreamInfo) : outcome dict :=
  let duration :=
    match info_length info with
    | Some length =>
        let '(minutes, seconds) := Py.divmod length 60 in
        Py.str_int (Py.int_of_float minutes) +:+ ":" +:+
        Py.format_02d (Py.int_of_float seconds)
    | None => "Unknown"
    end in
  let channels :=
    match info_channels info with Some n => VInt n | None => VStr "Unknown" end in
  let channel_text :=
    if value_eqb channels (VInt 1) then "Mono"
    else if value_eqb channels (VInt 2) then "Stereo"
    else str_value channels +:+ " channels" in
  let sample_rate :=
    match info_sample_rate info with Some n => VInt n | None => VStr "Unknown" end in
  let bitrate :=
    match info_bitrate info with Some b => b / 1000 | None => 0 end in
  obind (Py.format_mb total_size) (fun size =>
  Return (list_to_map [
    ("file_size", size +:+ " MB");
    ("duration", duration);
    ("channels", channel_text);
    ("sample_rate",
      if negb (value_eqb sample_rate (VStr "Unknown"))
      then str_value sample_rate +:+ " Hz" else "Unknown");
    ("bitrate",
      if negb (bitrate =? 0) then Py.str_int bitrate +:+ " kbps" else "Unknown")
  ])).

(** Lines 143-145. *)
Definition no_metadata_error : dict :=
  list_to_map [
    ("error",
     "Could not extract metadata. The file may have non-standard formatting or may not be a valid audio file.")
  ].

(** Lines 148-154. *)
Definition headers_not_found_report (total_size : Z) : outcome dict :=
  obind (Py.format_mb total_size) (fun size =>
  Return (list_to_map [
    ("file_size", size +:+ " MB");
    ("duration", "Unknown (headers not found)");
    ("channels", "Unknown");
    ("sample_rate", "Unknown");
    ("bitrate", "Unknown")
  ])).

(** Line 21: [int(head_response.headers.get("content-length", 0))]. *)
Definition content_length (header : option string) : outcome Z :=
  match header with
  | None => Return 0
  | Some s =>
      match Py.int_of_str s with
      | Some n => Return n
      | None =>
          Raise (ValueError ("invalid literal for int() with base 10: " +:+ Py.repr s))
      end
  end.

Section Program.

Context (w : world).

(** Lines 36-38: the chunks are appended to the open file; empty ones are
    skipped. *)
Fixpoint write_chunks (temp_path : string) (cs : list (list Byte.byte)) : M unit :=
  match cs with
  | [] => ret tt
  | chunk :: rest =>
      _ <- (match chunk with
            | [] => ret tt
            | _ :: _ => fun fs => (Return tt, alter (fun data => data ++ chunk) temp_path fs)
            end) ;;
      write_chunks temp_path rest
  end.

(** Lines 33-39: the temporary file is created empty and kept on close
    ([delete=False]); the body is streamed into it.  An exception of the
    iteration leaves the [with] block, which only closes the file. *)
Definition download (file_extension : string) (response : response_body) : M string :=
  temp_path <- (fun fs =>
                  match NamedTemporaryFile w file_extension fs with
                  | Return name => (Return name, <[name := []]> fs)
                  | Raise e => (Raise e, fs)
                  end) ;;
  _ <- write_chunks temp_path (chunks response) ;;
  _ <- (match interrupted response with
        | Some e => raise e
        | None => ret tt
        end) ;;
  ret temp_path.

(** Lines 42-145: the body of the inner [try]. *)
Definition parse (total_size : Z) (file_extension temp_path : string) : M dict :=
  audio <- (fun fs => (mutagen w (select_parser file_extension) temp_path fs, fs)) ;;
  match usable_info audio with
  | Some info => lift (report_primary total_size info)
  | None =>
      audio <- (fun fs => (mutagen w File temp_path fs, fs)) ;;
      match usable_info audio with
      | Some info => lift (report_fallback total_size info)
      | None => ret no_metadata_error
      end
  end.

(** Lines 146-157: [except HeaderNotFoundError] first, then
    [except Exception as e]. *)
Definition parse_handlers (total_size : Z) (e : exn) : M dict :=
  if is_HeaderNotFoundError e then lift (headers_not_found_report total_size)
  else ret (list_to_map [("error", "Error extracting metadata: " +:+ str_of_exn e)]).

(** Lines 158-161: the [finally] clause. *)
Definition cleanup (temp_path : string) : M unit :=
  fun fs =>
    (Return tt,
     if bool_decide (is_Some (fs !! temp_path)) then delete temp_path fs else fs).

(** Lines 41-161. *)
Definition extract (total_size : Z) (file_extension temp_path : string) : M dict :=
  try_finally
    (try_except (parse total_size file_extension temp_path) (parse_handlers total_size))
    (cleanup temp_path).

(** Lines 20-21: the size probe. *)
Definition probe (url : string) : M Z :=
  head_response <- lift (requests_head w url) ;;
  lift (content_length head_response).

(** Lines 23-39: the progress line (its f-string is evaluated), the
    streamed request, the extension and the temporary file. *)
Definition fetch (url : string) (total_size : Z) : M (string * string) :=
  _ <- lift (Py.format_mb total_size) ;;
  response <- lift (requests_get w url) ;;
  let file_extension := path_suffix_lower w url in
  temp_path <- download file_extension response ;;
  ret (file_extension, temp_path).

(** Lines 163-164. *)
Definition retrieval_handler (e : exn) : M dict :=
  ret (list_to_map [("error", "Error retrieving metadata: " +:+ str_of_exn e)]).

(** Lines 17-164. *)
Definition get_mp3_metadata (url : string) : M dict :=
  try_except
    (total_size <- probe url ;;
     file <- fetch url total_size ;;
     extract total_size (fst file) (snd file))
    retrieval_handler.

(** A direct fallback-only parse, in the words of the specification: the
    generic parser is the only attempt and what it yields is normalized by
    the rules of the primary path. *)
Definition fallback_only_parse (total_size : Z) (temp_path : string) : M dict :=
  audio <- (fun fs => (mutagen w File temp_path fs, fs)) ;;
  match usable_info audio with
  | Some info => lift (report_primary total_size info)
  | None => ret no_metadata_error
  end.

End Program.

(** The two shapes of a returned dictionary. *)
Definition is_error_report (d : dict) : Prop := dom d = {["error"]}.

Definition is_metadata_report (d : dict) : Prop :=
  dom d = {["file_size"; "duration"; "channels"; "sample_rate"; "bitrate"]}.


(** ** Concrete worlds *)

(** A server that answers the probe with [header] and the download with
    [body]; temporary files are named [/tmp/tmpk3v9x2] plus the suffix; the
    parser selected for the extension yields [primary] and the generic
    parser yields [generic]. *)
Definition test_world (header : option string) (body : response_body)
    (file_extension : string) (primary generic : outcome audio) : world := {|
  requests_head := fun _ => Return header;
  requests_get := fun _ => Return body;
  path_suffix_lower := fun _ => file_extension;
  NamedTemporaryFile := fun suffix _ => Return ("/tmp/tmpk3v9x2" +:+ suffix);
  mutagen := fun p _ _ => match p with File => generic | _ => primary end
|}.

Definition ID3 : list Byte.byte := [Byte.x49; Byte.x44; Byte.x33].

Definition whole_body : response_body :=
  {| chunks := [ID3; []; ID3]; interrupted := None |}.

Definition broken_body : response_body :=
  {| chunks := [ID3];
     interrupted := Some (Exn false "Connection broken: IncompleteRead") |}.

(** The info of the scenario of the specification: 185.4 s (the binary64
    number written 185.4), stereo, 44.1 kHz, 192 kbit/s. *)
Definition scenario_info : StreamInfo := {|
  info_length := Some (6523182585269453 # 35184372088832);
  info_channels := Some 2;
  info_sample_rate := Some 44100;
  info_bitrate := Some 192000
|}.

(** The info of a MIDI file: a length (12 s) and nothing else. *)
Definition midi_info : StreamInfo := {|
  info_length := Some 12%Q;
  info_channels := None;
  info_sample_rate := None;
  info_bitrate := None
|}.

Definition HeaderNotFoundError : exn := Exn true "can't sync to MPEG frame".

(** An info whose bitrate is positive and below one kilobit per second. *)
Definition low_bitrate_info : StreamInfo := {|
  info_length := Some 12%Q;
  info_channels := Some 1;
  info_sample_rate := Some 8000;
  info_bitrate := Some 999
|}.

Definition track_url : string := "http://example.org/track.mp3".

(** An .mp3 URL of 5 MiB whose MP3 parse raises [HeaderNotFoundError]. *)
Definition unsynced_world : world :=
  test_world (Some "5242880") whole_body ".mp3" (Raise HeaderNotFoundError)
    (Return AudioNone).


(** An .mp3 URL whose MP3 parse yields no usable info and whose generic
    parse yields the info of the scenario. *)
Definition fallback_world : world :=
  test_world (Some "5242880") whole_body ".mp3" (Return AudioInfoNone)
    (Return (AudioInfo scenario_info)).

(** An .mp3 URL whose MP3 parse fails with an I/O error. *)
Definition failing_parse_world : world :=
  test_world (Some "5242880") whole_body ".mp3"
    (Raise (Exn false "unexpected end of file")) (Return AudioNone).



(** A server that drops the connection after the first chunk. *)
Definition dropped_connection_world : world :=
  test_world (Some "5242880") broken_body ".mp3" (Return (AudioInfo scenario_info))
    (Return AudioNone).

(** The temporary file of an .mp3 download and the filesystem that holds
    it once [whole_body] is written. *)
Definition temp_mp3 : string := "/tmp/tmpk3v9x2.mp3".

Definition downloaded : filesystem := {[ temp_mp3 := ID3 ++ ID3 ]}.

(** A world whose six collaborators are given one by one; the temporary
    file gets the name [temp] whatever the suffix. *)
Definition custom_world (head : outcome (option string))
    (get : outcome response_body) (file_extension : string)
    (temp : outcome string) (primary generic : outcome audio) : world := {|
  requests_head := fun _ => head;
  requests_get := fun _ => get;
  path_suffix_lower := fun _ => file_extension;
  NamedTemporaryFile := fun _ _ => temp;
  mutagen := fun p _ _ => match p with File => generic | _ => primary end
|}.

(** A host that refuses the connection of the probe. *)
Definition offline_world : world :=
  custom_world (Raise (Exn false "Connection refused")) (Return whole_body) ".mp3"
    (Return temp_mp3) (Return AudioNone) (Return AudioNone).

(** An .mp3 URL whose MP3 parse yields the info of the scenario. *)
Definition plain_world : world :=
  test_world (Some "5242880") whole_body ".mp3" (Return (AudioInfo scenario_info))
    (Return AudioNone).

(** An .mp3 URL of something that is no audio: the MP3 parse yields an
    object without info and the generic parser yields [None]. *)
Definition unusable_world : world :=
  test_world (Some "5242880") whole_body ".mp3" (Return AudioWithoutInfo)
    (Return AudioNone).

(** A filesystem with one unrelated file. *)
Definition notes_txt : string := "/home/user/notes.txt".

Definition home_fs : filesystem := {[ notes_txt := [Byte.x68; Byte.x69] ]}.

(** A [content-length] of one followed by 315 zeros, beyond what the
    division by [1024 * 1024] can hold in a float, and a server that sends
    it. *)
Definition huge_length : string :=
  "1" +:+ string_of_list_ascii (repeat "0"%char 315).

Definition huge_length_world : world :=
  test_world (Some huge_length) whole_body ".mp3" (Return (AudioInfo scenario_info))
    (Return AudioNone).

(** * Properties *)

Example scenario_run :
  get_mp3_metadata
    (test_world (Some "5242880") whole_body ".mp3" (Return (AudioInfo scenario_info))
       (Return AudioNone))
    "http://example.org/a.mp3" ∅ =
  (Return (list_to_map [("file_size", "5.00 MB"); ("duration", "3:05");
                        ("channels", "Stereo"); ("sample_rate", "44100 Hz");
                        ("bitrate", "192 kbps")]), ∅).
Proof. vm_compute. reflexivity. Qed.

(** ** The stages of a run *)

Ltac unfold_monad :=
  unfold try_finally, try_except, bind, lift, ret, raise in *.

Lemma cleanup_delete temp_path (fs : filesystem) :
  cleanup temp_path fs = (Return tt, delete temp_path fs).
Proof.
  unfold cleanup. case_bool_decide as Hfile; [done|].
  f_equal. symmetry. apply delete_id.
  by apply eq_None_not_Some.
Qed.

(** The parsers only read: the try body leaves the filesystem alone. *)
Lemma parse_filesystem w total_size ext temp_path fs r fs' :
  parse w total_size ext temp_path fs = (r, fs') -> fs' = fs.
Proof.
  unfold parse. unfold_monad.
  destruct (mutagen w (select_parser ext) temp_path fs) as [a|e]; [|congruence].
  destruct (usable_info a); [congruence|].
  destruct (mutagen w File temp_path fs) as [a'|e']; [|congruence].
  destruct (usable_info a'); congruence.
Qed.

Lemma probe_filesystem w url fs r fs' :
  probe w url fs = (r, fs') -> fs' = fs.
Proof.
  unfold probe. unfold_monad.
  destruct (requests_head w url); congruence.
Qed.

(** A fetch that succeeds has formatted the size for the progress line. *)
Lemma fetch_size w url total_size fs file fs1 :
  fetch w url total_size fs = (Return file, fs1) ->
  exists size, Py.format_mb total_size = Return size.
Proof.
  unfold fetch. unfold_monad.
  destruct (Py.format_mb total_size) as [size|e]; [eauto|congruence].
Qed.

Lemma extract_unfold w total_size ext temp_path fs :
  extract w total_size ext temp_path fs =
  (match parse w total_size ext temp_path fs with
   | (Return d, _) => Return d
   | (Raise e, _) =>
       if is_HeaderNotFoundError e then headers_not_found_report total_size
       else Return (list_to_map [("error", "Error extracting metadata: " +:+ str_of_exn e)])
   end, delete temp_path fs).
Proof.
  unfold extract, try_finally, try_except.
  destruct (parse w total_size ext temp_path fs) as [[d|e] fs'] eqn:Hparse;
    apply parse_filesystem in Hparse as ->.
  - by rewrite cleanup_delete.
  - unfold parse_handlers. destruct (is_HeaderNotFoundError e); unfold lift, ret;
      by rewrite cleanup_delete.
Qed.

Lemma get_mp3_metadata_fetched w url fs total_size ext temp_path fs1 :
  probe w url fs = (Return total_size, fs) ->
  fetch w url total_size fs = (Return (ext, temp_path), fs1) ->
  get_mp3_metadata w url fs =
  try_except (extract w total_size ext temp_path) retrieval_handler fs1.
Proof.
  intros Hprobe Hfetch. unfold get_mp3_metadata.
  unfold try_except at 1 2. unfold bind at 1. rewrite Hprobe.
  unfold bind at 1. by rewrite Hfetch.
Qed.

(** ** Arithmetic of [divmod] and [int] *)

Lemma int_of_float_inject_Z z : Py.int_of_float (inject_Z z) = z.
Proof.
  unfold Py.int_of_float. rewrite Qfloor_Z, Qceiling_Z.
  by destruct (Qle_bool _ _).
Qed.


Lemma Qfloor_div_60 (x : Q) : Qfloor (x / 60) = Qfloor x / 60.
Proof.
  destruct x as [n p]. unfold Qdiv, Qmult, Qinv, Qfloor. cbn.
  rewrite Z.mul_1_r, Pos2Z.inj_mul.
  symmetry. apply Z.div_div; lia.
Qed.

(** The remainder of [divmod(x, 60)] lies in [0, 60): its integer part is
    the whole seconds of [x] modulo 60. *)
Lemma seconds_of_divmod (x : Q) :
  Py.int_of_float (x - inject_Z (Qfloor x / 60) * 60) = Qfloor x mod 60.
Proof.
  destruct x as [n p].
  unfold Py.int_of_float, Qle_bool, Qfloor, Qminus, Qplus, Qopp, Qmult, inject_Z.
  cbn -[Z.mul Z.div Z.add Z.modulo Z.leb Qceiling].
  rewrite !Z.mul_1_r, Pos.mul_1_r.
  pose proof (Z.div_mod n (Z.pos p) ltac:(lia)) as Hn.
  pose proof (Z.mod_pos_bound n (Z.pos p) ltac:(lia)) as Hr.
  pose proof (Z.div_mod (n / Z.pos p) 60 ltac:(lia)) as Hq.
  pose proof (Z.mod_pos_bound (n / Z.pos p) 60 ltac:(lia)) as Hs.
  generalize dependent (n mod Z.pos p). intros m Hn Hm.
  generalize dependent ((n / Z.pos p) mod 60). intros s Hq Hs.
  generalize dependent (n / Z.pos p / 60). intros q Hq.
  generalize dependent (n / Z.pos p). intros d Hn Hq.
  replace (n + - (q * 60) * Z.pos p) with (s * Z.pos p + m) by (subst n d; ring).
  rewrite Z.div_add_l by lia. rewrite (Z.div_small m) by lia.
  destruct (Z.leb_spec (0 * Z.pos p) (s * Z.pos p + m)); [lia|nia].
Qed.

(** ** Field normalization *)

Lemma Return_inj {A} (a b : A) : Return a = Return b -> a = b.
Proof. congruence. Qed.

Lemma run_inj {A} (a b : A) (fs fs' : filesystem) :
  (Return a, fs) = (Return b, fs') -> a = b /\ fs = fs'.
Proof. intros [= -> ->]. done. Qed.

Ltac report_fields H :=
  unfold report_primary, report_fallback, headers_not_found_report, obind in H;
  destruct (Py.format_mb _) as [?size|]; [|discriminate H];
  apply Return_inj in H as <-;
  rewrite ?list_to_map_cons, ?list_to_map_nil.

Ltac lookup_field :=
  repeat (rewrite lookup_insert_ne by discriminate); rewrite lookup_insert_eq.

(** C1, as the code has it. Bitrate normalization: an absent bitrate and a
    bitrate from 0 to 999 are reported as Unknown; a bitrate [b] of at
    least 1000 is reported as [floor(b/1000)] followed by kbps. *)
Theorem bitrate_normalization total_size info d :
  report_primary total_size info = Return d ->
  (info_bitrate info = None -> d !! "bitrate" = Some "Unknown") /\
  (forall b, info_bitrate info = Some b -> 0 <= b < 1000 ->
     d !! "bitrate" = Some "Unknown") /\
  (forall b, info_bitrate info = Some b -> 1000 <= b ->
     d !! "bitrate" = Some (Py.str_int (b / 1000) +:+ " kbps")).
Proof.
  intros Hreport. report_fields Hreport. lookup_field.
  split; [|split].
  - by intros ->.
  - intros b -> Hb. by rewrite (Z.div_small b 1000) by lia.
  - intros b -> Hb.
    assert (1 <= b / 1000) by (apply Z.div_le_lower_bound; lia).
    destruct (Z.eqb_spec (b / 1000) 0) as [Hz|_]; [lia|done].
Qed.



Lemma bitrate_normalization_witness :
  exists d, report_primary 5242880 scenario_info = Return d /\
    d !! "bitrate" = Some "192 kbps".
Proof.
  eexists. split; [reflexivity|].
  refine (proj2 (proj2 (bitrate_normalization 5242880 scenario_info _ eq_refl))
            192000 eq_refl _).
  lia.
Defined.

(** C1 as stated fails: the positive bitrate 999 is reported as Unknown,
    not as [floor(999/1000)] kbps. *)
Lemma bitrate_below_1000_is_unknown :
  exists d b, report_primary 0 low_bitrate_info = Return d /\
    info_bitrate low_bitrate_info = Some b /\ 0 < b /\
    d !! "bitrate" = Some "Unknown" /\
    d !! "bitrate" <> Some (Py.str_int (b / 1000) +:+ " kbps").
Proof.
  eexists. exists 999. split; [reflexivity|].
  repeat split; try done.
Qed.

(** Channel normalization as the code has it: the default of [getattr] is
    formatted like a count. *)
Lemma channel_normalization total_size info d :
  report_primary total_size info = Return d ->
  (info_channels info = Some 1 -> d !! "channels" = Some "Mono") /\
  (info_channels info = Some 2 -> d !! "channels" = Some "Stereo") /\
  (forall n, info_channels info = Some n -> n <> 1 -> n <> 2 ->
     d !! "channels" = Some (Py.str_int n +:+ " channels")) /\
  (info_channels info = None -> d !! "channels" = Some "Unknown channels").
Proof.
  intros Hreport. report_fields Hreport. lookup_field.
  repeat split.
  - by intros ->.
  - by intros ->.
  - intros n -> H1 H2. cbn.
    destruct (Z.eqb_spec n 1); [done|]. by destruct (Z.eqb_spec n 2).
  - by intros ->.
Qed.

(** C2 at the failing input: a MIDI file, whose info has a length and no
    channel count, is reported with channels "Unknown channels", where the
    claim (and the sample-rate rule next to it) says "Unknown". *)
Theorem absent_channels_reported_as_unknown_channels :
  get_mp3_metadata
    (test_world None whole_body ".mid" (Return (AudioInfo midi_info))
       (Return (AudioInfo midi_info)))
    "http://example.org/tune.mid" ∅ =
  (Return (list_to_map [("file_size", "0.00 MB"); ("duration", "0:12");
                        ("channels", "Unknown channels");
                        ("sample_rate", "Unknown"); ("bitrate", "Unknown")]), ∅).
Proof. vm_compute. reflexivity. Qed.

(** C7. Format dispatch: .mp3 selects the MP3 parser, .m4a and .mp4 the MP4
    parser, .flac the FLAC parser, .ogg the OggVorbis parser, .wav the WAVE
    parser, and every other extension, the empty one included, the generic
    parser [File]. *)
Theorem format_dispatch (file_extension : string) :
  (file_extension = ".mp3" -> select_parser file_extension = MP3) /\
  (file_extension = ".m4a" \/ file_extension = ".mp4" ->
     select_parser file_extension = MP4) /\
  (file_extension = ".flac" -> select_parser file_extension = FLAC) /\
  (file_extension = ".ogg" -> select_parser file_extension = OggVorbis) /\
  (file_extension = ".wav" -> select_parser file_extension = WAVE) /\
  (file_extension ∉ [".mp3"; ".m4a"; ".mp4"; ".flac"; ".ogg"; ".wav"] ->
     select_parser file_extension = File).
Proof.
  repeat split.
  - by intros ->.
  - by intros [-> | ->].
  - by intros ->.
  - by intros ->.
  - by intros ->.
  - intros Hother. rewrite !not_elem_of_cons in Hother.
    destruct Hother as (Hmp3 & Hm4a & Hmp4 & Hflac & Hogg & Hwav & _).
    unfold select_parser.
    destruct (String.eqb_spec file_extension ".mp3") as [?|_]; [done|].
    destruct (bool_decide_reflect (file_extension ∈ [".m4a"; ".mp4"])) as [Hin|_].
    { apply elem_of_cons in Hin as [?|Hin]; [done|].
      apply elem_of_cons in Hin as [?|Hin]; [done|].
      by apply elem_of_nil in Hin. }
    destruct (String.eqb_spec file_extension ".flac") as [?|_]; [done|].
    destruct (String.eqb_spec file_extension ".ogg") as [?|_]; [done|].
    by destruct (String.eqb_spec file_extension ".wav") as [?|_].
Qed.

Lemma format_dispatch_witness :
  select_parser ".flac" = FLAC /\ select_parser "" = File /\
  select_parser ".aac" = File.
Proof.
  split; [|split].
  - by apply (format_dispatch ".flac").
  - apply (format_dispatch ""). refine (bool_decide_unpack _ _). exact I.
  - apply (format_dispatch ".aac"). refine (bool_decide_unpack _ _). exact I.
Defined.

(** ** The shape of the result *)

Lemma error_report_shape (msg : string) :
  is_error_report (list_to_map [("error", msg)]).
Proof.
  unfold is_error_report. rewrite list_to_map_cons, list_to_map_nil.
  rewrite dom_insert_L, dom_empty_L. set_solver.
Qed.

Lemma report_shape total_size info d :
  report_primary total_size info = Return d \/
  report_fallback total_size info = Return d \/
  headers_not_found_report total_size = Return d ->
  is_metadata_report d.
Proof.
  intros [Hreport | [Hreport | Hreport]]; report_fields Hreport;
    unfold is_metadata_report; rewrite !dom_insert_L, dom_empty_L; set_solver.
Qed.

Lemma report_file_size total_size info d :
  report_primary total_size info = Return d \/
  report_fallback total_size info = Return d \/
  headers_not_found_report total_size = Return d ->
  exists size, Py.format_mb total_size = Return size /\
    d !! "file_size" = Some (size +:+ " MB").
Proof.
  intros [Hreport | [Hreport | Hreport]];
    unfold report_primary, report_fallback, headers_not_found_report, obind in Hreport;
    destruct (Py.format_mb total_size) as [size|]; try discriminate Hreport;
    apply Return_inj in Hreport as <-; exists size; split; try done;
    rewrite list_to_map_cons; apply lookup_insert_eq.
Qed.

(** The two copies of the normalization code agree. *)
Lemma report_fallback_primary total_size info :
  report_fallback total_size info = report_primary total_size info.
Proof. reflexivity. Qed.

(** What the try body can return. *)
Lemma parse_returns w total_size ext temp_path fs d fs' :
  parse w total_size ext temp_path fs = (Return d, fs') ->
  d = no_metadata_error \/
  exists info, report_primary total_size info = Return d.
Proof.
  unfold parse. unfold_monad.
  destruct (mutagen w (select_parser ext) temp_path fs) as [a|e]; [|congruence].
  destruct (usable_info a) as [info|].
  { intros [= Hd _]. right. by exists info. }
  destruct (mutagen w File temp_path fs) as [a'|e']; [|congruence].
  destruct (usable_info a') as [info|].
  { intros [= Hd _]. right. exists info. by rewrite <- report_fallback_primary. }
  intros [= <- _]. by left.
Qed.

Lemma extract_returns w total_size ext temp_path fs d fs' :
  extract w total_size ext temp_path fs = (Return d, fs') ->
  (is_error_report d /\ is_Some (d !! "error")) \/
  (is_metadata_report d /\
   exists size, Py.format_mb total_size = Return size /\
     d !! "file_size" = Some (size +:+ " MB")).
Proof.
  rewrite extract_unfold.
  destruct (parse w total_size ext temp_path fs) as [[d'|e] fs''] eqn:Hparse.
  - intros [= <- _]. apply parse_returns in Hparse as [-> | [info Hreport]].
    + left. split; [apply error_report_shape|]. by eexists.
    + right. split; [eapply report_shape | eapply report_file_size]; eauto.
  - destruct (is_HeaderNotFoundError e).
    + intros [= Hreport _]. right.
      split; [eapply (report_shape _ midi_info) | eapply (report_file_size _ midi_info)];
        eauto.
    + intros [<- _]%run_inj. left. split; [apply error_report_shape|].
      rewrite list_to_map_cons, lookup_insert_eq. by eexists.
Qed.

(** Once the size is formatted (the fetch did it), the extractor returns. *)
Lemma extract_total w total_size ext temp_path fs size :
  Py.format_mb total_size = Return size ->
  exists d, extract w total_size ext temp_path fs = (Return d, delete temp_path fs).
Proof.
  intros Hsize. rewrite extract_unfold.
  destruct (parse w total_size ext temp_path fs) as [[d|e] fs'] eqn:Hparse; [eauto|].
  destruct (is_HeaderNotFoundError e); [|eauto].
  unfold headers_not_found_report, obind. rewrite Hsize. eauto.
Qed.

(** ** Header not found *)






(** ** Fallback *)

(** C6. When the first parse yields no usable info and the generic parser
    does, the try body is a fallback-only parse, and the function returns
    the report that the rules of the primary path give for the info of the
    generic parser. *)
Theorem fallback_is_authoritative w url fs total_size ext temp_path fs1 a a' info :
  probe w url fs = (Return total_size, fs) ->
  fetch w url total_size fs = (Return (ext, temp_path), fs1) ->
  mutagen w (select_parser ext) temp_path fs1 = Return a ->
  usable_info a = None ->
  mutagen w File temp_path fs1 = Return a' ->
  usable_info a' = Some info ->
  parse w total_size ext temp_path fs1 = fallback_only_parse w total_size temp_path fs1 /\
  exists d, report_primary total_size info = Return d /\
    get_mp3_metadata w url fs = (Return d, delete temp_path fs1).
Proof.
  intros Hprobe Hfetch Hparser Hunusable Hgeneric Husable.
  assert (Hparse : parse w total_size ext temp_path fs1 =
                   (report_primary total_size info, fs1)).
  { unfold parse, bind, lift. rewrite Hparser, Hunusable, Hgeneric, Husable.
    by rewrite report_fallback_primary. }
  split.
  { rewrite Hparse. unfold fallback_only_parse, bind, lift.
    by rewrite Hgeneric, Husable. }
  destruct (fetch_size _ _ _ _ _ _ Hfetch) as [size Hsize].
  assert (exists d, report_primary total_size info = Return d) as [d Hd].
  { unfold report_primary, obind. rewrite Hsize. eauto. }
  exists d. split; [done|].
  rewrite (get_mp3_metadata_fetched _ _ _ _ _ _ _ Hprobe Hfetch).
  unfold try_except. rewrite extract_unfold, Hparse. by rewrite Hd.
Qed.

Lemma fallback_is_authoritative_witness :
  exists d fs', report_primary 5242880 scenario_info = Return d /\
    get_mp3_metadata fallback_world track_url ∅ = (Return d, fs').
Proof.
  edestruct (fallback_is_authoritative fallback_world track_url ∅ 5242880 ".mp3" temp_mp3 downloaded)
    as (_ & d & Hreport & Hrun); [vm_compute; reflexivity ..|].
  exists d. eexists. split; [exact Hreport | exact Hrun].
Defined.

(** ** Containment of failures *)

(** C9. The function never raises: every run returns a dictionary, which
    is an error record or a metadata record; and when the try body raises
    an exception other than [HeaderNotFoundError], the dictionary is the
    error record that carries [str(e)]. *)
Theorem never_raises w url fs :
  exists d fs', get_mp3_metadata w url fs = (Return d, fs') /\
    (is_error_report d \/ is_metadata_report d) /\
    (forall total_size ext temp_path fs1 e fs2,
       probe w url fs = (Return total_size, fs) ->
       fetch w url total_size fs = (Return (ext, temp_path), fs1) ->
       parse w total_size ext temp_path fs1 = (Raise e, fs2) ->
       is_HeaderNotFoundError e = false ->
       d = list_to_map [("error", "Error extracting metadata: " +:+ str_of_exn e)]).
Proof.
  destruct (probe w url fs) as [[total_size|e] fs0] eqn:Hprobe;
    pose proof (probe_filesystem _ _ _ _ _ Hprobe) as ->.
  2: { exists (list_to_map [("error", "Error retrieving metadata: " +:+ str_of_exn e)]), fs.
       split; [|split].
       - unfold get_mp3_metadata, try_except, bind. by rewrite Hprobe.
       - left. apply error_report_shape.
       - congruence. }
  destruct (fetch w url total_size fs) as [[[ext temp_path]|e] fs1] eqn:Hfetch.
  2: { exists (list_to_map [("error", "Error retrieving metadata: " +:+ str_of_exn e)]), fs1.
       split; [|split].
       - unfold get_mp3_metadata, try_except, bind. by rewrite Hprobe, Hfetch.
       - left. apply error_report_shape.
       - congruence. }
  destruct (fetch_size _ _ _ _ _ _ Hfetch) as [size Hsize].
  destruct (extract_total w total_size ext temp_path fs1 size Hsize) as [d Hextract].
  exists d, (delete temp_path fs1). split; [|split].
  - rewrite (get_mp3_metadata_fetched _ _ _ _ _ _ _ Hprobe Hfetch).
    unfold try_except. by rewrite Hextract.
  - apply extract_returns in Hextract as [[Hshape _] | [Hshape _]]; auto.
  - intros total_size' ext' temp_path' fs1' e fs2 Hp Hf Hparse Hother.
    apply run_inj in Hp as [<- _]. rewrite Hfetch in Hf.
    apply run_inj in Hf as [[= <- <-] <-].
    rewrite extract_unfold, Hparse, Hother in Hextract.
    by apply run_inj in Hextract as [<- _].
Qed.

Lemma never_raises_witness :
  exists d fs', get_mp3_metadata failing_parse_world track_url ∅ = (Return d, fs') /\
    d = list_to_map [("error", "Error extracting metadata: unexpected end of file")].
Proof.
  destruct (never_raises failing_parse_world track_url ∅) as (d & fs' & Hrun & _ & Hcause).
  exists d, fs'. split; [exact Hrun|].
  apply (Hcause 5242880 ".mp3" temp_mp3 downloaded
           (Exn false "unexpected end of file") downloaded);
    vm_compute; reflexivity.
Defined.

(** ** The size header *)




(** ** The temporary file *)

Lemma write_chunks_keeps_file temp_path cs (fs : filesystem) :
  exists fs', write_chunks temp_path cs fs = (Return tt, fs') /\
    (is_Some (fs !! temp_path) -> is_Some (fs' !! temp_path)).
Proof.
  revert fs. induction cs as [|chunk rest IH]; intros fs.
  - exists fs. by split.
  - cbn [write_chunks]. unfold bind.
    destruct chunk as [|b chunk].
    + unfold ret at 1. apply IH.
    + destruct (IH (alter (fun data => data ++ b :: chunk) temp_path fs))
        as (fs' & Hrun & Hkeep).
      exists fs'. split; [done|]. intros Hfile. apply Hkeep.
      rewrite lookup_alter_eq. by apply fmap_is_Some.
Qed.

(** Once the download is complete, the temporary file is gone when the
    function returns, whatever the parsers do. *)
Lemma temporary_file_removed w url fs total_size ext temp_path fs1 :
  probe w url fs = (Return total_size, fs) ->
  fetch w url total_size fs = (Return (ext, temp_path), fs1) ->
  exists d fs', get_mp3_metadata w url fs = (Return d, fs') /\
    fs' !! temp_path = None.
Proof.
  intros Hprobe Hfetch.
  destruct (fetch_size _ _ _ _ _ _ Hfetch) as [size Hsize].
  destruct (extract_total w total_size ext temp_path fs1 size Hsize) as [d Hextract].
  exists d, (delete temp_path fs1). split; [|apply lookup_delete_eq].
  rewrite (get_mp3_metadata_fetched _ _ _ _ _ _ _ Hprobe Hfetch).
  unfold try_except. by rewrite Hextract.
Qed.

(** An exception of the streamed download leaves the function before the
    inner [try] is entered: the file just created stays behind. *)
Lemma interrupted_download_keeps_file w ext response fs name e :
  NamedTemporaryFile w ext fs = Return name ->
  interrupted response = Some e ->
  exists fs', download w ext response fs = (Raise e, fs') /\
    is_Some (fs' !! name).
Proof.
  intros Hname Hbroken. unfold download. unfold bind at 1. rewrite Hname.
  destruct (write_chunks_keeps_file name (chunks response) (<[name := []]> fs))
    as (fs' & Hwrite & Hkeep).
  exists fs'. split.
  - unfold bind at 1. rewrite Hwrite. unfold bind. by rewrite Hbroken.
  - apply Hkeep. rewrite lookup_insert_eq. by eexists.
Qed.

(** C4 at the failing input: the server drops the connection after the
    first chunk; the function returns the error record of the retrieval
    and the temporary file, holding that chunk, is still there. *)
Theorem dropped_connection_leaks_temporary_file :
  get_mp3_metadata dropped_connection_world track_url ∅ =
  (Return (list_to_map
             [("error", "Error retrieving metadata: Connection broken: IncompleteRead")]),
   {[ temp_mp3 := ID3 ]}).
Proof. vm_compute. reflexivity. Qed.

(** ** The builtins on examples *)

Example int_of_str_examples :
  Py.int_of_str "5242880" = Some 5242880 /\ Py.int_of_str " 12 " = Some 12 /\
  Py.int_of_str "1_0" = Some 10 /\ Py.int_of_str "-5" = Some (-5) /\
  Py.int_of_str "abc" = None /\ Py.int_of_str "" = None /\
  Py.int_of_str "1__0" = None /\ Py.int_of_str "_1" = None /\
  Py.int_of_str "- 5" = None /\ Py.int_of_str "1_" = None.
Proof. repeat split; reflexivity. Qed.

Example repr_examples :
  Py.repr "abc" = "'abc'" /\
  Py.repr "a'b" = String Py.dquote ("a'b" +:+ String Py.dquote "") /\
  Py.repr (String "009" (String "000" "")) = "'\t\x00'".
Proof. repeat split; reflexivity. Qed.

Example format_mb_examples :
  Py.format_mb 5242880 = Return "5.00" /\ Py.format_mb 0 = Return "0.00" /\
  Py.format_mb 131072 = Return "0.12" /\ Py.format_mb 393216 = Return "0.38" /\
  Py.format_mb (-5) = Return "-0.00" /\
  Py.format_mb (2 ^ 1044) =
    Raise (OverflowError "integer division result too large for a float").
Proof. repeat split; vm_compute; reflexivity. Qed.

(** The binary64 numbers written 125.7 and 59.99 give the same durations
    as the decimals. *)
Example duration_of_binary64_literals :
  report_primary 0 {| info_length := Some (8845351143132365 # 70368744177664);
                      info_channels := None; info_sample_rate := None;
                      info_bitrate := None |} =
    Return (list_to_map [("file_size", "0.00 MB"); ("duration", "2:05");
                         ("channels", "Unknown channels");
                         ("sample_rate", "Unknown"); ("bitrate", "Unknown")]) /\
  report_primary 0 {| info_length := Some (8442841926436127 # 140737488355328);
                      info_channels := None; info_sample_rate := None;
                      info_bitrate := None |} =
    Return (list_to_map [("file_size", "0.00 MB"); ("duration", "0:59");
                         ("channels", "Unknown channels");
                         ("sample_rate", "Unknown"); ("bitrate", "Unknown")]).
Proof. split; vm_compute; reflexivity. Qed.

(** * Further properties of [get_mp3_metadata] *)

(** ** The download *)

Lemma write_chunks_appends temp_path cs (fs : filesystem) data :
  fs !! temp_path = Some data ->
  write_chunks temp_path cs fs = (Return tt, <[temp_path := data ++ concat cs]> fs).
Proof.
  revert fs data. induction cs as [|chunk rest IH]; intros fs data Hfile.
  - cbn. unfold ret. by rewrite app_nil_r, insert_id.
  - cbn [write_chunks concat]. unfold bind.
    destruct chunk as [|b chunk].
    + unfold ret at 1. by apply IH.
    + rewrite (IH _ (data ++ b :: chunk)).
      * f_equal. rewrite <- (insert_id fs temp_path data) at 1 by done.
        rewrite alter_insert_eq, insert_insert_eq. by rewrite <- app_assoc.
      * by rewrite lookup_alter_eq, Hfile.
Qed.

Lemma download_run w ext response fs name :
  NamedTemporaryFile w ext fs = Return name ->
  download w ext response fs =
  (match interrupted response with
   | None => Return name
   | Some e => Raise e
   end, <[name := concat (chunks response)]> fs).
Proof.
  intros Hname. unfold download. unfold bind at 1. rewrite Hname.
  unfold bind at 1.
  rewrite (write_chunks_appends name (chunks response) (<[name := []]> fs) [])
    by apply lookup_insert_eq.
  rewrite insert_insert_eq, app_nil_l. unfold bind.
  by destruct (interrupted response).
Qed.

(** Once the temporary file is created, the download leaves in it the chunks
    of the body in order and nothing else, whatever the file of that name
    held before and whether or not the iteration was interrupted; every other
    file is as it was; and the download returns the name of the file exactly
    when the iteration was not interrupted. *)
Theorem download_stores_body w ext response fs name :
  NamedTemporaryFile w ext fs = Return name ->
  exists fs1,
    download w ext response fs =
      (match interrupted response with
       | None => Return name
       | Some e => Raise e
       end, fs1) /\
    fs1 !! name = Some (concat (chunks response)) /\
    forall path, path <> name -> fs1 !! path = fs !! path.
Proof.
  intros Hname. eexists. split; [by apply download_run|]. split.
  - apply lookup_insert_eq.
  - intros path Hpath. by apply lookup_insert_ne.
Qed.

Lemma download_stores_body_witness :
  exists fs1,
    download plain_world ".mp3" whole_body home_fs = (Return temp_mp3, fs1) /\
    fs1 !! temp_mp3 = Some (ID3 ++ ID3) /\
    forall path, path <> temp_mp3 -> fs1 !! path = home_fs !! path.
Proof.
  by apply (download_stores_body plain_world ".mp3" whole_body home_fs temp_mp3).
Defined.

(** A download that fails to create its file leaves the filesystem alone. *)
Lemma download_without_file w ext response fs e :
  NamedTemporaryFile w ext fs = Raise e ->
  download w ext response fs = (Raise e, fs).
Proof. intros Hname. unfold download. unfold bind at 1. by rewrite Hname. Qed.

(** The filesystem after [fetch]: a fetch that returns has created the
    temporary file it names and written the body into it; a fetch that
    raises has left the filesystem alone or left the file behind. *)
Lemma fetch_filesystem w url total_size fs r fs1 :
  fetch w url total_size fs = (r, fs1) ->
  match r with
  | Return (ext, temp_path) =>
      ext = path_suffix_lower w url /\
      exists response,
        requests_get w url = Return response /\
        NamedTemporaryFile w ext fs = Return temp_path /\
        fs1 = <[temp_path := concat (chunks response)]> fs
  | Raise _ =>
      fs1 = fs \/
      exists name response,
        NamedTemporaryFile w (path_suffix_lower w url) fs = Return name /\
        fs1 = <[name := concat (chunks response)]> fs
  end.
Proof.
  unfold fetch. unfold bind at 1. unfold lift at 1.
  destruct (Py.format_mb total_size) as [size|e]; [|intros [= <- <-]; by left].
  unfold bind at 1. unfold lift at 1.
  destruct (requests_get w url) as [response|e]; [|intros [= <- <-]; by left].
  destruct (NamedTemporaryFile w (path_suffix_lower w url) fs) as [name|e] eqn:Hname.
  - unfold bind at 1. rewrite (download_run _ _ _ _ _ Hname).
    destruct (interrupted response); unfold ret; intros [= <- <-].
    + right. by exists name, response.
    + split; [done|]. by exists response.
  - unfold bind at 1. rewrite (download_without_file _ _ _ _ _ Hname).
    intros [= <- <-]. by left.
Qed.

(** ** The filesystem around a run *)

Lemma get_mp3_metadata_unfold w url fs :
  get_mp3_metadata w url fs =
  match probe w url fs with
  | (Return total_size, fs0) =>
      match fetch w url total_size fs0 with
      | (Return (ext, temp_path), fs1) =>
          try_except (extract w total_size ext temp_path) retrieval_handler fs1
      | (Raise e, fs1) => retrieval_handler e fs1
      end
  | (Raise e, fs0) => retrieval_handler e fs0
  end.
Proof.
  unfold get_mp3_metadata. unfold try_except at 1. unfold bind at 1.
  destruct (probe w url fs) as [[total_size|e] fs0]; [|done].
  unfold bind at 1.
  by destruct (fetch w url total_size fs0) as [[[ext temp_path]|e] fs1].
Qed.

(** A run touches one path only, the temporary file: every other file is
    after the run what it was before. *)
Theorem other_files_untouched w url fs r fs' path :
  get_mp3_metadata w url fs = (r, fs') ->
  NamedTemporaryFile w (path_suffix_lower w url) fs <> Return path ->
  fs' !! path = fs !! path.
Proof.
  intros Hrun Hother. rewrite get_mp3_metadata_unfold in Hrun.
  destruct (probe w url fs) as [[total_size|e] fs0] eqn:Hprobe;
    apply probe_filesystem in Hprobe as ->; [|by injection Hrun as _ <-].
  destruct (fetch w url total_size fs) as [[[ext temp_path]|e] fs1] eqn:Hfetch;
    apply fetch_filesystem in Hfetch.
  - destruct Hfetch as (-> & response & _ & Hname & ->).
    assert (temp_path <> path) as Hne by congruence.
    unfold try_except in Hrun. rewrite extract_unfold in Hrun.
    assert (fs' = delete temp_path (<[temp_path := concat (chunks response)]> fs)) as ->.
    { destruct (parse _ _ _ _ _) as [[d|e] fs2]; [by injection Hrun as _ <-|].
      destruct (is_HeaderNotFoundError e); [|by injection Hrun as _ <-].
      destruct (headers_not_found_report total_size); by injection Hrun as _ <-. }
    by rewrite lookup_delete_ne, lookup_insert_ne.
  - injection Hrun as _ <-.
    destruct Hfetch as [-> | (name & response & Hname & ->)]; [done|].
    rewrite lookup_insert_ne; [done|congruence].
Qed.

Lemma other_files_untouched_witness :
  (get_mp3_metadata plain_world track_url home_fs).2 !! notes_txt =
  home_fs !! notes_txt.
Proof.
  apply (other_files_untouched plain_world track_url home_fs
           (get_mp3_metadata plain_world track_url home_fs).1).
  - apply surjective_pairing.
  - vm_compute. discriminate.
Defined.

(** A run whose download completes into a fresh temporary file leaves the
    filesystem exactly as it found it. *)
Theorem filesystem_restored w url (fs : filesystem) total_size ext temp_path fs1 :
  probe w url fs = (Return total_size, fs) ->
  fetch w url total_size fs = (Return (ext, temp_path), fs1) ->
  fs !! temp_path = None ->
  exists d, get_mp3_metadata w url fs = (Return d, fs).
Proof.
  intros Hprobe Hfetch Hfresh.
  destruct (fetch_size _ _ _ _ _ _ Hfetch) as [size Hsize].
  destruct (extract_total w total_size ext temp_path fs1 size Hsize) as [d Hextract].
  exists d. rewrite (get_mp3_metadata_fetched _ _ _ _ _ _ _ Hprobe Hfetch).
  unfold try_except. rewrite Hextract. f_equal.
  apply fetch_filesystem in Hfetch as (_ & response & _ & _ & ->).
  by apply delete_insert_id.
Qed.

Lemma filesystem_restored_witness :
  exists d, get_mp3_metadata plain_world track_url home_fs = (Return d, home_fs).
Proof.
  apply (filesystem_restored plain_world track_url home_fs 5242880 ".mp3" temp_mp3
           (<[temp_mp3 := ID3 ++ ID3]> home_fs)); vm_compute; reflexivity.
Defined.

Lemma temporary_file_removed_witness :
  exists d fs', get_mp3_metadata unsynced_world track_url downloaded = (Return d, fs') /\
    fs' !! temp_mp3 = None.
Proof.
  apply (temporary_file_removed unsynced_world track_url downloaded 5242880 ".mp3"
           temp_mp3 downloaded); vm_compute; reflexivity.
Defined.

(** ** Failures of the retrieval *)

(** Whatever fails before the temporary file exists (the probe request, the
    parsing of its size header, the formatting of the size, the download
    request, the creation of the file) ends the run with the error record
    of the retrieval that carries [str(e)], the filesystem untouched.  A
    [HeaderNotFoundError] gets no special treatment there. *)
Theorem failure_before_the_download w url fs e :
  requests_head w url = Raise e \/
  (exists header,
     requests_head w url = Return header /\ content_length header = Raise e) \/
  (exists total_size,
     probe w url fs = (Return total_size, fs) /\
     (Py.format_mb total_size = Raise e \/
      (exists size, Py.format_mb total_size = Return size) /\
      (requests_get w url = Raise e \/
       (exists response, requests_get w url = Return response) /\
       NamedTemporaryFile w (path_suffix_lower w url) fs = Raise e))) ->
  get_mp3_metadata w url fs =
  (Return (list_to_map [("error", "Error retrieving metadata: " +:+ str_of_exn e)]), fs).
Proof.
  rewrite get_mp3_metadata_unfold.
  intros [Hhead | [(header & Hhead & Hsize) | (total_size & Hprobe & Hfetch)]].
  - unfold probe, bind, lift. by rewrite Hhead.
  - unfold probe, bind, lift. by rewrite Hhead, Hsize.
  - rewrite Hprobe. unfold fetch. unfold bind at 1. unfold lift at 1.
    destruct Hfetch as [Hmb | [[size Hmb] Hget]]; rewrite Hmb; [done|].
    unfold bind at 1. unfold lift at 1.
    destruct Hget as [Hget | [[response Hget] Htemp]]; rewrite Hget; [done|].
    unfold bind at 1. by rewrite (download_without_file _ _ _ _ _ Htemp).
Qed.

Lemma failure_before_the_download_witness :
  get_mp3_metadata offline_world track_url home_fs =
  (Return (list_to_map [("error", "Error retrieving metadata: Connection refused")]),
   home_fs).
Proof.
  apply (failure_before_the_download offline_world track_url home_fs
           (Exn false "Connection refused")).
  by left.
Defined.

(** ** The outcomes of the two parses *)

(** When the parser chosen for the extension yields an info, the report is
    built from it by lines 59-100 and the generic parser plays no part. *)
Theorem primary_info_is_reported w url fs total_size ext temp_path fs1 a info :
  probe w url fs = (Return total_size, fs) ->
  fetch w url total_size fs = (Return (ext, temp_path), fs1) ->
  mutagen w (select_parser ext) temp_path fs1 = Return a ->
  usable_info a = Some info ->
  exists d, report_primary total_size info = Return d /\
    get_mp3_metadata w url fs = (Return d, delete temp_path fs1).
Proof.
  intros Hprobe Hfetch Hparser Husable.
  destruct (fetch_size _ _ _ _ _ _ Hfetch) as [size Hsize].
  assert (exists d, report_primary total_size info = Return d) as [d Hd].
  { unfold report_primary, obind. rewrite Hsize. eauto. }
  exists d. split; [done|].
  rewrite (get_mp3_metadata_fetched _ _ _ _ _ _ _ Hprobe Hfetch).
  unfold try_except. rewrite extract_unfold.
  unfold parse, bind, lift. by rewrite Hparser, Husable, Hd.
Qed.

Lemma primary_info_is_reported_witness :
  exists d, report_primary 5242880 scenario_info = Return d /\
    get_mp3_metadata plain_world track_url ∅ = (Return d, delete temp_mp3 downloaded).
Proof.
  apply (primary_info_is_reported plain_world track_url ∅ 5242880 ".mp3" temp_mp3
           downloaded (AudioInfo scenario_info)); vm_compute; reflexivity.
Defined.

(** When neither parse yields an info ([None], an object without [info],
    or an [info] that is [None]), the result is the error record of lines
    143-145, and the temporary file is removed. *)
Theorem no_usable_metadata w url fs total_size ext temp_path fs1 a a' :
  probe w url fs = (Return total_size, fs) ->
  fetch w url total_size fs = (Return (ext, temp_path), fs1) ->
  mutagen w (select_parser ext) temp_path fs1 = Return a ->
  usable_info a = None ->
  mutagen w File temp_path fs1 = Return a' ->
  usable_info a' = None ->
  get_mp3_metadata w url fs =
  (Return (list_to_map
     [("error",
       "Could not extract metadata. The file may have non-standard formatting or may not be a valid audio file.")]),
   delete temp_path fs1).
Proof.
  intros Hprobe Hfetch Hparser Hunusable Hgeneric Hunusable'.
  rewrite (get_mp3_metadata_fetched _ _ _ _ _ _ _ Hprobe Hfetch).
  unfold try_except. rewrite extract_unfold.
  unfold parse, bind, lift, ret. by rewrite Hparser, Hunusable, Hgeneric, Hunusable'.
Qed.

Lemma no_usable_metadata_witness :
  get_mp3_metadata unusable_world track_url ∅ =
  (Return (list_to_map
     [("error",
       "Could not extract metadata. The file may have non-standard formatting or may not be a valid audio file.")]),
   delete temp_mp3 downloaded).
Proof.
  apply (no_usable_metadata unusable_world track_url ∅ 5242880 ".mp3" temp_mp3
           downloaded AudioWithoutInfo AudioNone); vm_compute; reflexivity.
Defined.

(** ** More of the field normalization *)

(** A sample rate [n] is reported as [n] followed by Hz, a missing one as
    Unknown. *)
Theorem sample_rate_normalization total_size info d :
  report_primary total_size info = Return d ->
  d !! "sample_rate" =
    Some (match info_sample_rate info with
          | Some n => Py.str_int n +:+ " Hz"
          | None => "Unknown"
          end).
Proof.
  intros Hreport. report_fields Hreport. lookup_field.
  by destruct (info_sample_rate info).
Qed.

Lemma sample_rate_normalization_witness :
  exists d, report_primary 5242880 scenario_info = Return d /\
    d !! "sample_rate" = Some "44100 Hz".
Proof.
  eexists. split; [reflexivity|].
  exact (sample_rate_normalization 5242880 scenario_info _ eq_refl).
Defined.

Lemma channel_normalization_witness :
  exists d, report_primary 5242880 scenario_info = Return d /\
    d !! "channels" = Some "Stereo".
Proof.
  eexists. split; [reflexivity|].
  exact (proj1 (proj2 (channel_normalization 5242880 scenario_info _ eq_refl)) eq_refl).
Defined.

(** For a length [L] in the range where the float operations are exact
    ([0 <= L < 2^53]), the duration shows the whole seconds [floor(L)] split
    into minutes and seconds: the two numbers shown give back [floor(L)], and
    the seconds shown lie between 0 and 59. *)
Theorem duration_splits_whole_seconds total_size info d L :
  report_primary total_size info = Return d ->
  info_length info = Some L ->
  (0 <= L)%Q -> (L < inject_Z (2 ^ 53))%Q ->
  exists minutes seconds,
    d !! "duration" = Some (Py.str_int minutes +:+ ":" +:+ Py.format_02d seconds) /\
    60 * minutes + seconds = Qfloor L /\ 0 <= seconds < 60.
Proof.
  intros Hreport HL _ _. report_fields Hreport. lookup_field. rewrite HL.
  exists (Qfloor L / 60), (Qfloor L mod 60).
  split; [|split].
  - unfold Py.divmod. cbv beta iota zeta.
    by rewrite int_of_float_inject_Z, Qfloor_div_60, seconds_of_divmod.
  - symmetry. apply Z.div_mod. lia.
  - apply Z.mod_pos_bound. lia.
Qed.

Lemma duration_splits_whole_seconds_witness :
  exists d minutes seconds,
    report_primary 5242880 scenario_info = Return d /\
    d !! "duration" = Some (Py.str_int minutes +:+ ":" +:+ Py.format_02d seconds) /\
    60 * minutes + seconds = 185 /\ 0 <= seconds < 60.
Proof.
  destruct (duration_splits_whole_seconds 5242880 scenario_info _
              (6523182585269453 # 35184372088832) eq_refl eq_refl
              ltac:(vm_compute; discriminate) ltac:(vm_compute; reflexivity))
    as (minutes & seconds & Hduration & Hsplit & Hrange).
  eexists _, minutes, seconds. split; [reflexivity|]. by split.
Defined.



(** ** The size of the probe *)

Lemma to_binary64_small n : 0 <= n < 2 ^ 53 -> Py.to_binary64 n = n.
Proof.
  intros Hn. unfold Py.to_binary64.
  destruct (Z.leb_spec (Z.log2 n + 1) 53) as [_|Hbits]; [done|].
  assert (0 < n) as Hpos.
  { destruct (Z.eq_dec n 0) as [->|]; [|lia]. cbn in Hbits. lia. }
  pose proof (proj1 (Z.log2_lt_pow2 n 53 Hpos)). lia.
Qed.

Lemma round_half_even_exact q d : 0 < d -> Py.round_half_even (q * d) d = q.
Proof.
  intros Hd. unfold Py.round_half_even.
  rewrite Z.mod_mul, Z.div_mul by lia.
  by destruct (Z.ltb_spec (2 * 0) d); [|lia].
Qed.

Lemma round_half_even_lower n d : 0 < d -> n / d <= Py.round_half_even n d.
Proof.
  intros Hd. unfold Py.round_half_even.
  repeat match goal with |- context [if ?b then _ else _] => destruct b end; lia.
Qed.

Lemma to_binary64_large m : 2 ^ 1044 <= m -> 2 ^ 1044 <= Py.to_binary64 m.
Proof.
  intros Hm. unfold Py.to_binary64.
  assert (0 < m) as Hpos by lia.
  assert (1044 <= Z.log2 m) as Hlog.
  { apply Z.log2_le_pow2; lia. }
  destruct (Z.leb_spec (Z.log2 m + 1) 53) as [Hbits|_]; [lia|].
  set (sh := Z.log2 m + 1 - 53).
  pose proof (Z.log2_spec m Hpos) as [Hlow _].
  assert (2 ^ 52 <= m / 2 ^ sh) as Hq.
  { apply Z.div_le_lower_bound; [apply Z.pow_pos_nonneg; lia|].
    rewrite <- Z.pow_add_r by lia.
    replace (sh + 52) with (Z.log2 m) by lia. done. }
  pose proof (round_half_even_lower m (2 ^ sh) ltac:(apply Z.pow_pos_nonneg; lia)) as Hr.
  assert (2 ^ 1044 <= 2 ^ 52 * 2 ^ sh) as Hbig.
  { rewrite <- Z.pow_add_r by lia. apply Z.pow_le_mono_r; lia. }
  assert (0 < 2 ^ sh) by (apply Z.pow_pos_nonneg; lia).
  nia.
Qed.

(** Sizes are counted in units of [2^20] bytes: a size of [k] such units
    (below 8 PiB) is formatted as [k] with two zero decimals. *)
Theorem whole_mebibytes k :
  0 <= k < 2 ^ 33 -> Py.format_mb (k * 2 ^ 20) = Return (Py.str_int k +:+ ".00").
Proof.
  intros Hk. unfold Py.format_mb.
  rewrite Z.abs_eq by lia.
  rewrite to_binary64_small by lia.
  destruct (Z.leb_spec (2 ^ 1044) (k * 2 ^ 20)) as [Hbig|_]; [lia|].
  replace (k * 2 ^ 20 * 100) with (100 * k * 2 ^ 20) by lia.
  rewrite round_half_even_exact by lia.
  destruct (Z.ltb_spec (k * 2 ^ 20) 0) as [?|_]; [lia|].
  replace (100 * k) with (k * 100) by lia.
  rewrite Z.div_mul, Z.mod_mul by lia. done.
Qed.

Lemma pretty_N_char_digit (m : N) :
  (m < 10)%N ->
  Py.is_digit (pretty_N_char m) = true /\
  Py.digit_value (pretty_N_char m) = Z.of_N m.
Proof.
  intros Hm.
  assert (m = 0 \/ m = 1 \/ m = 2 \/ m = 3 \/ m = 4 \/ m = 5 \/ m = 6 \/
          m = 7 \/ m = 8 \/ m = 9)%N as Hcases by lia.
  repeat (destruct Hcases as [-> | Hcases]; [by split|]).
  subst m. by split.
Qed.

Lemma scan_digits_digit c r acc :
  Py.is_digit c = true ->
  Py.scan_digits acc (String c r) = Py.scan_digits (10 * acc + Py.digit_value c) r.
Proof. intros Hc. cbn [Py.scan_digits]. by rewrite Hc. Qed.

Lemma scan_digits_pretty_N_go (x : N) :
  exists k, 0 <= k /\
    forall s acc,
      Py.scan_digits acc (pretty_N_go x s) =
      Py.scan_digits (acc * 10 ^ k + Z.of_N x) s.
Proof.
  induction (N.lt_wf_0 x) as [x _ IH].
  destruct (decide (x = 0%N)) as [->|Hx].
  - exists 0. split; [done|]. intros s acc. rewrite pretty_N_go_0. f_equal. lia.
  - destruct (IH (x `div` 10)%N) as (k & Hk & Hscan).
    { apply N.div_lt; lia. }
    exists (k + 1). split; [lia|]. intros s acc.
    rewrite pretty_N_go_step by lia. rewrite Hscan.
    destruct (pretty_N_char_digit (x `mod` 10)%N) as [Hdigit Hvalue].
    { apply N.mod_lt. lia. }
    rewrite scan_digits_digit by done. rewrite Hvalue. f_equal.
    rewrite Z.pow_add_r by lia. change (10 ^ 1) with 10.
    rewrite N2Z.inj_div, N2Z.inj_mod. change (Z.of_N 10) with 10.
    pose proof (Z.div_mod (Z.of_N x) 10 ltac:(lia)) as Hdm.
    generalize dependent (10 ^ k). intros P Hscan. lia.
Qed.

Lemma pretty_N_go_head (x : N) s :
  (0 < x)%N ->
  exists m r, (m < 10)%N /\ pretty_N_go x s = String (pretty_N_char m) r.
Proof.
  revert s. induction (N.lt_wf_0 x) as [x _ IH]. intros s Hx.
  rewrite pretty_N_go_step by done.
  destruct (decide (x `div` 10 = 0)%N) as [Hz|Hnz].
  - rewrite Hz, pretty_N_go_0. exists (x `mod` 10)%N, s.
    split; [apply N.mod_lt; lia|done].
  - apply IH; [apply N.div_lt; lia|by apply N.neq_0_lt_0].
Qed.

Lemma int_of_str_digits m r :
  (m < 10)%N ->
  Py.int_of_str (String (pretty_N_char m) r) =
  (let '(v, rest) := Py.scan_digits 0 (String (pretty_N_char m) r) in
   match Py.skip_space rest with
   | EmptyString => Some v
   | String _ _ => None
   end) /\
  Py.int_of_str (String "-" (String (pretty_N_char m) r)) =
  (let '(v, rest) := Py.scan_digits 0 (String (pretty_N_char m) r) in
   match Py.skip_space rest with
   | EmptyString => Some (- v)
   | String _ _ => None
   end).
Proof.
  intros Hm.
  assert (m = 0 \/ m = 1 \/ m = 2 \/ m = 3 \/ m = 4 \/ m = 5 \/ m = 6 \/
          m = 7 \/ m = 8 \/ m = 9)%N as Hcases by lia.
  repeat (destruct Hcases as [-> | Hcases]; [by split|]).
  subst m. by split.
Qed.

Lemma int_of_str_pretty_N (x : N) :
  (0 < x)%N ->
  Py.int_of_str (pretty_N_go x "") = Some (Z.of_N x) /\
  Py.int_of_str ("-" +:+ pretty_N_go x "") = Some (- Z.of_N x).
Proof.
  intros Hx.
  destruct (pretty_N_go_head x "" Hx) as (m & r & Hm & Hhead).
  destruct (scan_digits_pretty_N_go x) as (k & _ & Hscan).
  specialize (Hscan "" 0). rewrite Hhead in Hscan.
  destruct (int_of_str_digits m r Hm) as [Hplus Hminus].
  rewrite Z.mul_0_l, Z.add_0_l in Hscan.
  rewrite Hscan in Hplus, Hminus. rewrite Hhead. by split.
Qed.

(** [int(str(n))] is [n]. *)
Lemma int_of_str_str_int (n : Z) : Py.int_of_str (Py.str_int n) = Some n.
Proof.
  destruct n as [|p|p].
  - reflexivity.
  - apply (int_of_str_pretty_N (N.pos p)). lia.
  - apply (int_of_str_pretty_N (N.pos p)). lia.
Qed.

Lemma whole_mebibytes_witness : Py.format_mb 5242880 = Return "5.00".
Proof. apply (whole_mebibytes 5). lia. Defined.

(** A [content-length] header that is the decimal writing of an integer
    is taken at that value, negative ones included.  The integer has at most
    4300 digits, the length up to which every interpreter converts a string
    of digits. *)
Theorem decimal_content_length (n : Z) :
  Z.abs n < 10 ^ 4300 ->
  content_length (Some (Py.str_int n)) = Return n.
Proof. intros _. unfold content_length. by rewrite int_of_str_str_int. Qed.

Lemma decimal_content_length_witness :
  content_length (Some "5242880") = Return 5242880.
Proof. apply (decimal_content_length 5242880). vm_compute. reflexivity. Defined.

(** A [content-length] of [2^1044] or more (some 315 digits) ends the run
    before the download: the progress line of line 23 cannot format it, and
    the result is the error record of the [OverflowError].  The header has
    at most 4300 characters, the length up to which every interpreter
    converts a string of digits. *)
Theorem oversized_content_length w url fs s n :
  requests_head w url = Return (Some s) ->
  (String.length s <= 4300)%nat ->
  Py.int_of_str s = Some n ->
  2 ^ 1044 <= Z.abs n ->
  get_mp3_metadata w url fs =
  (Return (list_to_map
     [("error",
       "Error retrieving metadata: integer division result too large for a float")]),
   fs).
Proof.
  intros Hhead _ Hint Hbig. rewrite get_mp3_metadata_unfold.
  unfold probe, bind, lift, content_length. rewrite Hhead, Hint.
  unfold fetch, bind, lift, Py.format_mb.
  apply to_binary64_large in Hbig.
  by destruct (Z.leb_spec (2 ^ 1044) (Py.to_binary64 (Z.abs n))); [|lia].
Qed.

Lemma oversized_content_length_witness :
  get_mp3_metadata huge_length_world track_url home_fs =
  (Return (list_to_map
     [("error",
       "Error retrieving metadata: integer division result too large for a float")]),
   home_fs).
Proof.
  apply (oversized_content_length huge_length_world track_url home_fs huge_length
           (10 ^ 315)).
  - reflexivity.
  - vm_compute. lia.
  - vm_compute. reflexivity.
  - vm_compute. discriminate.
Defined.

(** ** The two shapes again *)

(** The key ["error"] tells the two shapes of a result apart, as the caller
    of [get_mp3_metadata] assumes at line 181: a result with the key has no
    other key, and a result without it has exactly the five fields. *)
Theorem error_key_decides_shape w url fs d fs' :
  get_mp3_metadata w url fs = (Return d, fs') ->
  (is_Some (d !! "error") /\ is_error_report d) \/
  (d !! "error" = None /\ is_metadata_report d).
Proof.
  intros Hrun. rewrite get_mp3_metadata_unfold in Hrun.
  assert (forall e : exn, is_Some
            ((list_to_map [("error", "Error retrieving metadata: " +:+ str_of_exn e)]
              : dict) !! "error")) as Herror.
  { intros e. rewrite list_to_map_cons, lookup_insert_eq. by eexists. }
  destruct (probe w url fs) as [[total_size|e] fs0].
  - destruct (fetch w url total_size fs0) as [[[ext temp_path]|e] fs1].
    + unfold try_except in Hrun.
      destruct (extract w total_size ext temp_path fs1) as [[d'|e] fs2] eqn:Hextract.
      * apply run_inj in Hrun as [-> _].
        apply extract_returns in Hextract as [[Hshape Hkey] | [Hshape _]].
        -- by left.
        -- right. split; [|done]. apply not_elem_of_dom.
           unfold is_metadata_report in Hshape. rewrite Hshape.
           refine (bool_decide_unpack _ _). vm_compute. exact I.
      * unfold retrieval_handler, ret in Hrun. apply run_inj in Hrun as [<- _].
        left. split; [apply Herror | apply error_report_shape].
    + unfold retrieval_handler, ret in Hrun. apply run_inj in Hrun as [<- _].
      left. split; [apply Herror | apply error_report_shape].
  - unfold retrieval_handler, ret in Hrun. apply run_inj in Hrun as [<- _].
    left. split; [apply Herror | apply error_report_shape].
Qed.

Lemma error_key_decides_shape_witness :
  exists d fs', get_mp3_metadata unusable_world track_url home_fs = (Return d, fs') /\
    ((is_Some (d !! "error") /\ is_error_report d) \/
     (d !! "error" = None /\ is_metadata_report d)).
Proof.
  eexists _, _. split; [vm_compute; reflexivity|].
  eapply (error_key_decides_shape unusable_world track_url home_fs).
  vm_compute. reflexivity.
Defined.
